(** * A role-gated question-answering backend (app/main.py)

    Shallow embedding of the FastAPI application defined in
    [app/main.py]: the credential table, the [authenticate] dependency,
    the four protected endpoints, the static mount, the two frontend
    routes and the module-level start-up check.

    Conventions of the embedding
    - Python [str] is [string]; comparison of two [str] is equality of
      the strings.
    - A Python call either returns a value or raises: [Outcome].
    - The collaborators imported from other modules
      ([get_documents_by_role], [load_vector_store],
      [RetrievalQA.from_chain_type], [qa.run]) and the language model
      [llm] are parameters of the development. They act on an abstract
      world [W] and may raise.
    - Every call to a collaborator and every [print] is recorded in a
      trace, in the order in which the program performs them.
    - The web framework is modelled as far as the module relies on it:
      [FastAPI()] registers its documentation routes first, routes are
      tried in registration order, a route path is matched as the
      regular expression the framework compiles from it, a body
      announced as JSON is decoded before the dependencies are solved,
      the dependencies are solved before the endpoint is called, and an
      [HTTPException] becomes a JSON body [{"detail": ...}] with the
      exception's status code.  Request headers other than
      [Authorization] are not part of the model. *)

From Stdlib Require Import ZArith Ascii String List Bool.
From stdpp Require Import base option gmap strings list pretty.

Local Open Scope string_scope.
Local Open Scope Z_scope.

(** ** Values, exceptions, outcomes *)

(** JSON values, as far as the program builds them. *)
#[warnings="-register-all"]
Inductive json : Type :=
| JNull
| JStr (s : string)
| JArr (items : list json)
| JObj (fields : list (string * json)).

(** The exceptions the program can see.  [HTTPException] and
    [RuntimeError] are the two classes the source raises itself;
    [RequestValidationError] is the framework's exception for input
    that does not fit a declared model, with the text of its error
    list; [OtherError] stands for any other instance of [Exception],
    with its text;
    [SystemExiting] stands for the [BaseException]s that are not
    instances of [Exception] ([KeyboardInterrupt], [SystemExit]). *)
Inductive PyException : Type :=
| HTTPException (status_code : Z) (detail : string)
| RuntimeError (msg : string)
| RequestValidationError (errors : string)
| OtherError (text : string)
| SystemExiting (text : string).

(** [isinstance(e, Exception)]. *)
Definition is_Exception (e : PyException) : bool :=
  match e with
  | SystemExiting _ => false
  | _ => true
  end.

(** [str(e)], as interpolated by an f-string.  An [HTTPException]
    prints as its status code, a colon and its detail. *)
Definition exc_str (e : PyException) : string :=
  match e with
  | HTTPException s d => pretty s +:+ ": " +:+ d
  | RuntimeError m => m
  | RequestValidationError errors => errors
  | OtherError t => t
  | SystemExiting t => t
  end.

Inductive Outcome (A : Type) : Type :=
| Returns (a : A)
| Raises (e : PyException).
Arguments Returns {A} a.
Arguments Raises {A} e.

(** ** The credential table (lines 33-40) *)

(** A value of [users_db]: [{"password": ..., "role": ...}]. *)
Record UserRecord : Type := mkUser { password : string; role : string }.

Definition users_db : gmap string UserRecord :=
  <["Tony" := mkUser "password123" "engineering"]>
  (<["Bruce" := mkUser "securepass" "marketing"]>
  (<["Sam" := mkUser "financepass" "finance"]>
  (<["Peter" := mkUser "pete123" "engineering"]>
  (<["Sid" := mkUser "sidpass123" "marketing"]>
  (<["Natasha" := mkUser "hrpass123" "hr"]> ∅))))).

(** ** The authenticator (lines 43-49) *)

(** What [HTTPBasic] hands to [authenticate]. *)
Record HTTPBasicCredentials : Type :=
  mkCredentials { cred_username : string; cred_password : string }.

(** The dictionary [authenticate] returns:
    [{"username": ..., "role": ...}]. *)
Record Identity : Type := mkIdentity { id_username : string; id_role : string }.

Definition invalid_credentials : PyException :=
  HTTPException 401 "Invalid credentials".

(** [users_db.get] gives [None] for an absent key.  Every stored value
    is a dictionary with two keys, hence truthy: [not user] holds
    exactly when the lookup found nothing. *)
Definition authenticate (credentials : HTTPBasicCredentials) : Outcome Identity :=
  match users_db !! cred_username credentials with
  | None => Raises invalid_credentials
  | Some user =>
      if bool_decide (password user ≠ cred_password credentials)
      then Raises invalid_credentials
      else Returns (mkIdentity (cred_username credentials) (role user))
  end.

(** ** Effects: collaborator calls and console output *)

(** What an observer of one request can see the program do besides
    answering: a line written by [print], or a call to one of the
    imported collaborators, with the argument that matters here. *)
Inductive Event : Type :=
| Printed (line : string)
| Called_get_documents_by_role (role_arg : string)
| Called_load_vector_store (role_arg : string)
| Called_from_chain_type
| Called_run (query : string).

(** The state threaded through a handler: the collaborators' world and
    the trace so far. *)
Record State (W : Type) : Type := mkState { world : W; trace : list Event }.
Arguments mkState {W} world trace.
Arguments world {W} s.
Arguments trace {W} s.

(** A computation that reads and writes the state and may raise. *)
Definition M (W A : Type) : Type := State W -> Outcome A * State W.

#[global] Instance M_ret {W : Type} : MRet (M W) :=
  fun A a st => (Returns a, st).

#[global] Instance M_bind {W : Type} : MBind (M W) :=
  fun A B k m st =>
    match m st with
    | (Returns a, st') => k a st'
    | (Raises e, st') => (Raises e, st')
    end.

Definition raise {W A : Type} (e : PyException) : M W A :=
  fun st => (Raises e, st).

Definition lift {W A : Type} (o : Outcome A) : M W A :=
  fun st => (o, st).

(** [print(line)]. *)
Definition print {W : Type} (line : string) : M W () :=
  fun st => (Returns (), mkState (world st) (trace st ++ [Printed line])).

(** A call to a collaborator: the call is recorded, then the
    collaborator runs on the world. *)
Definition call {W A : Type} (ev : Event) (f : W -> Outcome A * W) : M W A :=
  fun st =>
    let '(o, w') := f (world st) in
    (o, mkState w' (trace st ++ [ev])).

(** [try: body  except Exception as e: handler(e)].  An exception that
    is not an instance of [Exception] passes through. *)
Definition try_except {W A : Type} (body : M W A)
    (handler : PyException -> M W A) : M W A :=
  fun st =>
    match body st with
    | (Returns a, st') => (Returns a, st')
    | (Raises e, st') =>
        if is_Exception e then handler e st' else (Raises e, st')
    end.

(** ** Requests and responses *)

Inductive Method : Type := GET | POST | PUT | DELETE | PATCH | HEAD | OPTIONS.

#[global] Instance Method_eq_dec : EqDecision Method.
Proof. solve_decision. Defined.

(** The [Authorization] header as [HTTPBasic] reads it: absent, of
    another scheme, [Basic] with a value that does not decode to
    [username:password], or [Basic] with credentials. *)
Inductive Authorization : Type :=
| AuthAbsent
| AuthOtherScheme
| AuthUndecodable
| AuthBasic (credentials : HTTPBasicCredentials).

(** [class ChatRequest(BaseModel): message: str] (lines 64-65). *)
Record ChatRequest : Type := mkChatRequest { message : string }.

(** The body of a request as a route with a [ChatRequest] parameter
    reads it: bytes announced as JSON that do not decode, or else what
    reading them against [ChatRequest] gives, [None] when there is no
    body or when it does not fit the model. *)
Inductive Payload : Type :=
| NotJSON
| Parsed (fitting : option ChatRequest).

(** A request as the application receives it; [path] is the decoded
    path, which may hold any character, a line feed included. *)
Record Request : Type := Received {
  method : Method;
  path : string;
  authorization : Authorization;
  payload : Payload
}.

(** The [ChatRequest] a request carries, if it carries one. *)
Definition body (req : Request) : option ChatRequest :=
  match payload req with
  | Parsed fitting => fitting
  | NotJSON => None
  end.

(** A request whose body, if any, decodes. *)
Definition mkRequest (m : Method) (p : string) (a : Authorization)
    (b : option ChatRequest) : Request :=
  Received m p a (Parsed b).

(** A file-system path, as its components; [absolute] tells whether it
    starts at the root. *)
Record FilePath : Type := mkPath { absolute : bool; components : list string }.

(** [os.path.join(p, c1, ..., cn)] for relative components [ci]. *)
Definition os_path_join (p : FilePath) (cs : list string) : FilePath :=
  mkPath (absolute p) (components p ++ cs).

Inductive Response : Type :=
| JSONResponse (status_code : Z) (content : json)
| EmptyResponse (status_code : Z)
| FileResponse (file : FilePath)
| RedirectResponse (url : string)
| ValidationErrorResponse
| StaticFilesResponse (m : Method) (asset : string)
| DocumentationResponse (page : string)
| InternalServerError (e : PyException).

(** The status line of a response, where the application decides it.
    A [FileResponse] and a static asset are answered from the file
    system when they are sent. *)
Definition status_of (r : Response) : option Z :=
  match r with
  | JSONResponse s _ => Some s
  | EmptyResponse s => Some s
  | FileResponse _ => None
  | RedirectResponse _ => Some 307
  | ValidationErrorResponse => Some 422
  | StaticFilesResponse _ _ => None
  | DocumentationResponse _ => Some 200
  | InternalServerError _ => Some 500
  end.

(** The framework's exception handlers: an [HTTPException] becomes
    [{"detail": detail}] with its status code (no body where the status
    forbids one), a validation error becomes 422, anything else is
    unhandled and the server answers 500 Internal Server Error. *)
Definition is_body_allowed_for_status_code (s : Z) : bool :=
  negb ((s <? 200) || (s =? 204) || (s =? 205) || (s =? 304)).

Definition exception_response (e : PyException) : Response :=
  match e with
  | HTTPException s d =>
      if is_body_allowed_for_status_code s
      then JSONResponse s (JObj [("detail", JStr d)])
      else EmptyResponse s
  | RequestValidationError _ => ValidationErrorResponse
  | _ => InternalServerError e
  end.

(** ** The file system *)

(** A tree of directories and regular files. *)
#[warnings="-register-all"]
Inductive Node : Type :=
| File (content : string)
| Dir (entries : list (string * Node)).

Fixpoint find_entry (name : string) (es : list (string * Node)) : option Node :=
  match es with
  | [] => None
  | (n, x) :: rest => if bool_decide (n = name) then Some x else find_entry name rest
  end.

(** A position in the tree: the directories above it, nearest first,
    and the node itself. *)
Definition Location : Type := list Node * Node.

(** Path resolution, one component at a time.  Nothing can be resolved
    below a regular file; [..] climbs (the root is its own parent). *)
Fixpoint walk (loc : Location) (cs : list string) : option Location :=
  match cs with
  | [] => Some loc
  | c :: rest =>
      match loc with
      | (_, File _) => None
      | (above, Dir es) =>
          if bool_decide (c = "") || bool_decide (c = ".") then walk loc rest
          else if bool_decide (c = "..") then
            match above with
            | [] => walk loc rest
            | parent :: above' => walk (above', parent) rest
            end
          else
            match find_entry c es with
            | Some n => walk (Dir es :: above, n) rest
            | None => None
            end
      end
  end.

Record FileSystem : Type := mkFS { root : Node; cwd : list string }.

Definition locate (fs : FileSystem) (p : FilePath) : option Location :=
  start ← (if absolute p then Some ([], root fs)
           else walk ([], root fs) (cwd fs));
  walk start (components p).

(** [os.path.exists(p)]. *)
Definition os_path_exists (fs : FileSystem) (p : FilePath) : bool :=
  match locate fs p with Some _ => true | None => false end.

(** The bytes of the regular file at [p], if there is one. *)
Definition read_file (fs : FileSystem) (p : FilePath) : option string :=
  match locate fs p with
  | Some (_, File content) => Some content
  | _ => None
  end.

(** [str(p)]. *)
Definition path_str (p : FilePath) : string :=
  (if absolute p then "/" else "") +:+ String.concat "/" (components p).

(** The bytes a response carries when it is a [FileResponse]. *)
Definition file_body (fs : FileSystem) (r : Response) : option string :=
  match r with
  | FileResponse p => read_file fs p
  | _ => None
  end.

(** ** The application (lines 17-102) *)

Section Application.

(** The collaborators.  [llm] is the model built at lines 29-30; the
    four functions are the imported loader, the retrieval index
    provider, the chain constructor and the chain's [run]. *)
Context {W Retriever QA LLM : Type}.
Variable llm : LLM.
Variable get_documents_by_role : string -> W -> Outcome json * W.
Variable load_vector_store : string -> W -> Outcome Retriever * W.
Variable from_chain_type : LLM -> Retriever -> W -> Outcome QA * W.
Variable run : QA -> string -> W -> Outcome string * W.

(** [os.path.dirname(__file__)]. *)
Variable here : FilePath.

(** *** Dependencies *)

(** [security = HTTPBasic()]: rejects a request without usable Basic
    credentials. *)
Definition security (a : Authorization) : Outcome HTTPBasicCredentials :=
  match a with
  | AuthAbsent | AuthOtherScheme | AuthUndecodable =>
      Raises (HTTPException 401 "Not authenticated")
  | AuthBasic c => Returns c
  end.

(** [user=Depends(authenticate)], with
    [credentials = Depends(security)] solved first. *)
Definition depends_authenticate (req : Request) : M W Identity :=
  credentials ← lift (security (authorization req));
  lift (authenticate credentials).

(** *** Endpoints *)

(** Lines 52-54. *)
Definition login (user : Identity) : M W json :=
  mret (JObj [("message", JStr ("Welcome " +:+ id_username user +:+ "!"));
              ("role", JStr (id_role user))]).

(** Lines 56-58. *)
Definition list_docs_by_role (user : Identity) : M W json :=
  call (Called_get_documents_by_role (id_role user))
       (get_documents_by_role (id_role user)).

(** Lines 60-62. *)
Definition test (user : Identity) : M W json :=
  mret (JObj [("message",
               JStr ("Hello " +:+ id_username user +:+ "! You can now chat."));
              ("role", JStr (id_role user))]).

Definition chat_failed : PyException :=
  HTTPException 500 "Chat failed. Please try again.".

(** Lines 67-82. *)
Definition chat_endpoint (request : ChatRequest) (user : Identity) : M W json :=
  print ("📨 Query from " +:+ id_username user +:+ " (" +:+ id_role user
         +:+ "): " +:+ message request);;
  try_except
    (retriever ← call (Called_load_vector_store (id_role user))
                      (load_vector_store (id_role user));
     qa ← call Called_from_chain_type (from_chain_type llm retriever);
     result ← call (Called_run (message request)) (run qa (message request));
     mret (JObj [("user", JStr (id_username user));
                 ("role", JStr (id_role user));
                 ("query", JStr (message request));
                 ("response", JStr result)]))
    (fun e =>
       print ("❌ Error during chat: " +:+ exc_str e);;
       raise chat_failed).

(** Lines 85-86. *)
Definition BUILD_DIR : FilePath := os_path_join here [".."; "frontend"; "build"].
Definition STATIC_DIR : FilePath := os_path_join BUILD_DIR ["static"].

(** Lines 93-95. *)
Definition serve_react_index : M W Response :=
  mret (FileResponse (os_path_join BUILD_DIR ["index.html"])).

(** Lines 97-99. *)
Definition serve_react_router (full_path : string) : M W Response :=
  mret (FileResponse (os_path_join BUILD_DIR ["index.html"])).

(** Lines 100-102. *)
Definition read_root : M W json :=
  mret (JObj [("message", JStr "Backend is running!")]).

(** [StaticFiles(directory=STATIC_DIR)]: the mounted application
    answers for the asset named by the rest of the path. *)
Definition StaticFiles (req : Request) (asset : string) : M W Response :=
  mret (StaticFilesResponse (method req) asset).

(** *** Routing *)

(** A route path: a literal, or a prefix followed by one
    [{name:path}] parameter that takes the rest. *)
Inductive PathPattern : Type :=
| Literal (p : string)
| PathParam (before name : string).

(** The framework compiles a route path to a regular expression and
    tries it at the start of the request path: the literal text as it
    is, [.*] for a [path] parameter, [$] at the end.  Two things follow
    from the expression language: [$] also holds just before a line
    feed that ends the path, and [.] takes any character but a line
    feed. *)
Definition line_feed : ascii := "010"%char.

Fixpoint has_line_feed (s : string) : bool :=
  match s with
  | EmptyString => false
  | String c rest => bool_decide (c = line_feed) || has_line_feed rest
  end.

(** The string without the line feed that ends it, if one does. *)
Fixpoint chomp (s : string) : string :=
  match s with
  | EmptyString => EmptyString
  | String c rest =>
      match rest with
      | EmptyString => if bool_decide (c = line_feed) then EmptyString else s
      | _ => String c (chomp rest)
      end
  end.

(** The pattern [literal$]. *)
Definition is_path (literal p : string) : bool :=
  bool_decide (p = literal)
  || bool_decide (p = literal +:+ String line_feed EmptyString).

(** The pattern [.*] and then [$] on what follows the prefix: the
    value captured, if the rest fits. *)
Definition rest_of_path (rest : string) : option string :=
  if has_line_feed (chomp rest) then None else Some (chomp rest).

(** The value captured by the pattern, if the path fits it. *)
Definition match_path (pat : PathPattern) (p : string) : option string :=
  match pat with
  | Literal l => if is_path l p then Some "" else None
  | PathParam before _ =>
      if String.prefix before p
      then rest_of_path
             (String.substring (String.length before)
                               (String.length p - String.length before) p)
      else None
  end.

Definition Endpoint : Type := Request -> string -> M W Response.

(** A route added by the framework itself ([PlainRoute], with the
    methods it answers), a route added by [@app.get] or [@app.post]
    ([APIRoute]), or a mounted application. *)
Inductive Route : Type :=
| PlainRoute (pat : PathPattern) (methods : list Method) (endpoint : Endpoint)
| APIRoute (pat : PathPattern) (m : Method) (endpoint : Endpoint)
| Mount (prefix : string) (app : Endpoint).

Definition allows (methods : list Method) (m : Method) : bool :=
  existsb (fun allowed => bool_decide (m = allowed)) methods.

Inductive Match : Type := NONE | PARTIAL | FULL.

(** A route whose path fits but whose method does not is a partial
    match; a mount takes every method. *)
Definition matches (r : Route) (req : Request) : Match * string :=
  match r with
  | PlainRoute pat methods _ =>
      match match_path pat (path req) with
      | None => (NONE, "")
      | Some param =>
          if allows methods (method req) then (FULL, param)
          else (PARTIAL, param)
      end
  | APIRoute pat m _ =>
      match match_path pat (path req) with
      | None => (NONE, "")
      | Some param =>
          if bool_decide (method req = m) then (FULL, param)
          else (PARTIAL, param)
      end
  | Mount prefix _ =>
      match match_path (PathParam (prefix +:+ "/") "path") (path req) with
      | None => (NONE, "")
      | Some param => (FULL, param)
      end
  end.

(** An endpoint that declares [user=Depends(authenticate)] and returns
    a dictionary. *)
Definition with_user (f : Identity -> M W json) : Endpoint :=
  fun req _ =>
    user ← depends_authenticate req;
    content ← f user;
    mret (JSONResponse 200 content).

(** [chat_endpoint(request: ChatRequest, user=Depends(authenticate))].
    The route has a body parameter, so the framework first decodes the
    body: bytes announced as JSON that do not decode are answered 422
    there and then.  Next the dependency is solved, and last the
    decoded body is read against [ChatRequest]; what does not fit is
    answered 422 without entering the endpoint. *)
Definition with_user_and_body (f : ChatRequest -> Identity -> M W json) : Endpoint :=
  fun req _ =>
    match payload req with
    | NotJSON => mret ValidationErrorResponse
    | Parsed fitting =>
        user ← depends_authenticate req;
        match fitting with
        | Some request =>
            content ← f request user;
            mret (JSONResponse 200 content)
        | None => mret ValidationErrorResponse
        end
    end.

(** One of the pages [FastAPI()] serves about the application: the
    OpenAPI schema, the two documentation viewers and the OAuth2
    redirect page of the first. *)
Definition documentation (page : string) : Endpoint :=
  fun _ _ => mret (DocumentationResponse page).

(** The route table, in registration order: the four routes
    [FastAPI()] adds at line 17, for [GET] and [HEAD], then the routes
    of the module in the order of its decorators and of its mount. *)
Definition routes : list Route :=
  [ PlainRoute (Literal "/openapi.json") [GET; HEAD]
      (documentation "/openapi.json");
    PlainRoute (Literal "/docs") [GET; HEAD] (documentation "/docs");
    PlainRoute (Literal "/docs/oauth2-redirect") [GET; HEAD]
      (documentation "/docs/oauth2-redirect");
    PlainRoute (Literal "/redoc") [GET; HEAD] (documentation "/redoc");
    APIRoute (Literal "/api/login") GET (with_user login);
    APIRoute (Literal "/api/role-docs") GET (with_user list_docs_by_role);
    APIRoute (Literal "/api/test") GET (with_user test);
    APIRoute (Literal "/api/chat") POST (with_user_and_body chat_endpoint);
    Mount "/static" StaticFiles;
    APIRoute (Literal "/") GET (fun _ _ => serve_react_index);
    APIRoute (PathParam "/" "full_path") GET (fun _ p => serve_react_router p);
    APIRoute (Literal "/") GET
      (fun _ _ => content ← read_root; mret (JSONResponse 200 content)) ].

Inductive Selected : Type :=
| Full (r : Route) (param : string)
| Partial (r : Route)
| Unmatched.

(** The first full match wins; failing that, the first partial match. *)
Fixpoint select (rs : list Route) (req : Request) (partial : option Route)
    : Selected :=
  match rs with
  | [] => match partial with Some r => Partial r | None => Unmatched end
  | r :: rest =>
      match matches r req with
      | (FULL, param) => Full r param
      | (PARTIAL, _) =>
          select rest req (match partial with Some _ => partial | None => Some r end)
      | (NONE, _) => select rest req partial
      end
  end.

Definition method_not_allowed : PyException :=
  HTTPException 405 "Method Not Allowed".
Definition not_found : PyException := HTTPException 404 "Not Found".

Definition handle (r : Route) (req : Request) (param : string) : M W Response :=
  match r with
  | PlainRoute _ methods endpoint =>
      if allows methods (method req) then endpoint req param
      else raise method_not_allowed
  | APIRoute _ m endpoint =>
      if bool_decide (method req = m) then endpoint req param
      else raise method_not_allowed
  | Mount _ app => app req param
  end.

(** The path with its trailing slash added or removed. *)
Fixpoint rstrip_slash (s : string) : string :=
  match s with
  | EmptyString => EmptyString
  | String c rest =>
      match rstrip_slash rest with
      | EmptyString =>
          if bool_decide (c = "/"%char) then EmptyString else String c EmptyString
      | r => String c r
      end
  end.

Definition toggle_slash (p : string) : string :=
  if bool_decide (rstrip_slash p = p) then p +:+ "/" else rstrip_slash p.

Definition router (req : Request) : M W Response :=
  match select routes req None with
  | Full r param => handle r req param
  | Partial r => handle r req ""
  | Unmatched =>
      let req' := Received (method req) (toggle_slash (path req))
                           (authorization req) (payload req) in
      if bool_decide (path req ≠ "/")
         && existsb (fun r => match matches r req' with
                              | (NONE, _) => false
                              | _ => true
                              end) routes
      then mret (RedirectResponse (toggle_slash (path req)))
      else raise not_found
  end.

(** The application: the router under the exception handlers. *)
Definition app (req : Request) (st : State W) : Response * State W :=
  match router req st with
  | (Returns r, st') => (r, st')
  | (Raises e, st') => (exception_response e, st')
  end.

(** *** Start-up (lines 85-91) and the serving process *)

(** What the process does, in order: the start-up check, then one
    answer per request. *)
Inductive ProcessEvent : Type :=
| Checked_exists (p : FilePath) (result : bool)
| Served (req : Request) (resp : Response) (sent_file : option string).

(** Importing the module, from line 85 on (the statements before it,
    which build the application object and the model, are taken to
    have completed): the check of line 88 runs; when it passes, the
    mount and the frontend routes are registered and the module's
    [app] is ready. *)
Definition startup (fs : FileSystem)
    : Outcome (Request -> State W -> Response * State W) * list ProcessEvent :=
  let found := os_path_exists fs STATIC_DIR in
  (if negb found
   then Raises (RuntimeError ("React build not found at: " +:+ path_str STATIC_DIR))
   else Returns app,
   [Checked_exists STATIC_DIR found]).

(** What reaches a running process: a request, or a change of the file
    system made from outside. *)
Inductive Input : Type :=
| Incoming (req : Request)
| FileSystemChange (fs' : FileSystem).

Fixpoint serve (application : Request -> State W -> Response * State W)
    (fs : FileSystem) (st : State W) (inputs : list Input)
    : list ProcessEvent * State W :=
  match inputs with
  | [] => ([], st)
  | Incoming req :: rest =>
      let '(resp, st') := application req st in
      let '(evs, st'') := serve application fs st' rest in
      (Served req resp (file_body fs resp) :: evs, st'')
  | FileSystemChange fs' :: rest => serve application fs' st rest
  end.

Inductive ProcessStatus : Type :=
| Aborted (e : PyException)
| Serving.

(** The life of one process started on the file system [fs]. *)
Definition run_process (fs : FileSystem) (st : State W) (inputs : list Input)
    : ProcessStatus * list ProcessEvent * State W :=
  match startup fs with
  | (Raises e, log) => (Aborted e, log, st)
  | (Returns application, log) =>
      let '(evs, st') := serve application fs st inputs in
      (Serving, (log ++ evs)%list, st')
  end.

Definition is_check (ev : ProcessEvent) : bool :=
  match ev with Checked_exists _ _ => true | Served _ _ _ => false end.

(** *** Vocabulary of the properties *)

(** The entry document of the frontend. *)
Definition index_html : FilePath :=
  os_path_join BUILD_DIR ["index.html"].

(** The four routes that declare [Depends(authenticate)], as the
    router recognises them. *)
Definition protected (req : Request) : bool :=
  bool_decide (method req = GET)
    && (is_path "/api/login" (path req)
        || is_path "/api/role-docs" (path req)
        || is_path "/api/test" (path req))
  || bool_decide (method req = POST) && is_path "/api/chat" (path req).

(** Credentials that do not authenticate: no usable [Authorization]
    header, or a pair that [authenticate] refuses. *)
Definition refused (a : Authorization) : bool :=
  match a with
  | AuthBasic c =>
      match authenticate c with Returns _ => false | Raises _ => true end
  | _ => true
  end.




(** The roles passed to the two role-scoped collaborators, in order. *)
Definition scoping_roles (tr : list Event) : list string :=
  omap (fun ev => match ev with
                  | Called_get_documents_by_role r => Some r
                  | Called_load_vector_store r => Some r
                  | _ => None
                  end) tr.



(** The paths for which the module registers a route of its own: the
    four API paths, the root, and everything under the static mount. *)
Definition explicit_route (p : string) : bool :=
  is_path "/api/login" p || is_path "/api/role-docs" p
  || is_path "/api/test" p || is_path "/api/chat" p
  || is_path "/" p || String.prefix "/static/" p.

(** The paths of the routes [FastAPI()] registers. *)
Definition documentation_path (p : string) : bool :=
  is_path "/openapi.json" p || is_path "/docs" p
  || is_path "/docs/oauth2-redirect" p || is_path "/redoc" p.

(** The path has no line feed, except possibly as its last
    character: the paths the [path] parameter of the catch-all route
    takes. *)
Definition one_line (p : string) : bool := negb (has_line_feed (chomp p)).




Definition error_line (e : PyException) : string :=
  "❌ Error during chat: " +:+ exc_str e.

(** A request that reaches a role-scoped endpoint with accepted
    credentials; every other request is answered without it. *)
Definition reaches_collaborators (req : Request) : bool :=
  (bool_decide (method req = GET) && is_path "/api/role-docs" (path req)
   || bool_decide (method req = POST) && is_path "/api/chat" (path req))
  && negb (refused (authorization req)).

(** Whether a route takes part in the redirect test of the router. *)
Definition fits (req : Request) (r : Route) : bool :=
  match matches r req with (NONE, _) => false | _ => true end.

(** What the router does when no route takes the request: a redirect
    when the path with its final slash added or removed fits a route,
    404 otherwise. *)
Definition unmatched (req : Request) : M W Response :=
  if bool_decide (path req <> "/")
     && existsb (fits (Received (method req) (toggle_slash (path req))
                                (authorization req) (payload req)))
                routes
  then mret (RedirectResponse (toggle_slash (path req)))
  else raise not_found.

(** What the two frontend routes do with a path they fit. *)
Definition frontend (req : Request) : M W Response :=
  if bool_decide (method req = GET)
  then mret (FileResponse index_html)
  else raise method_not_allowed.

(** The routes from the root route on. *)
Definition after_mount (req : Request) : M W Response :=
  if is_path "/" (path req) then frontend req
  else if String.prefix "/" (path req) then
    match rest_of_path (String.substring 1 (String.length (path req) - 1)
                                         (path req)) with
    | Some _ => frontend req
    | None => unmatched req
    end
  else unmatched req.

Definition documentation_route (page : string) (req : Request) : M W Response :=
  if allows [GET; HEAD] (method req)
  then mret (DocumentationResponse page)
  else raise method_not_allowed.

End Application.

(** ** A concrete deployment

    Collaborators small enough to evaluate: the world counts the calls
    made so far, the loader lists one document named after the role,
    and the chain answers with the retriever and the query it was
    given.  [failing_store] is an index provider that is unavailable. *)

Module Sample.

Definition get_documents_by_role (r : string) (w : nat) : Outcome json * nat :=
  (Returns (JArr [JStr (r +:+ "/handbook.md")]), S w).

Definition load_vector_store (r : string) (w : nat) : Outcome string * nat :=
  (Returns ("index:" +:+ r), S w).


Definition from_chain_type (_ : unit) (retriever : string) (w : nat)
    : Outcome string * nat :=
  (Returns retriever, S w).


Definition run (qa query : string) (w : nat) : Outcome string * nat :=
  (Returns (qa +:+ "?" +:+ query), S w).

Definition here : FilePath := mkPath true ["srv"; "app"].

Definition application : Request -> State nat -> Response * State nat :=
  app tt get_documents_by_role load_vector_store from_chain_type run here.


Definition idle : State nat := mkState 0%nat [].

Definition tony : HTTPBasicCredentials := mkCredentials "Tony" "password123".
Definition sam : HTTPBasicCredentials := mkCredentials "Sam" "financepass".

(** A checkout with the frontend built, and one without. *)
Definition built : FileSystem :=
  mkFS (Dir [("srv", Dir [("app", Dir [("main.py", File "")]);
                          ("frontend", Dir [("build",
                              Dir [("index.html", File "<html>");
                                   ("static", Dir [])])])])])
       [].

Definition unbuilt : FileSystem :=
  mkFS (Dir [("srv", Dir [("app", Dir [("main.py", File "")]);
                          ("frontend", Dir [])])])
       [].

End Sample.

(** * Properties *)

(** ** The authenticator *)


Lemma authenticate_returns_inv (credentials : HTTPBasicCredentials)
    (user : Identity) :
  authenticate credentials = Returns user ->
  exists rec, users_db !! cred_username credentials = Some rec
    /\ password rec = cred_password credentials
    /\ user = mkIdentity (cred_username credentials) (role rec).
Proof.
  unfold authenticate.
  destruct (users_db !! cred_username credentials) as [rec|]; [|discriminate].
  case_bool_decide as Hpw; [discriminate|].
  intros [= <-]. exists rec. split; [reflexivity|]. split; [|reflexivity].
  destruct (decide (password rec = cred_password credentials)); [assumption|].
  contradiction.
Qed.

(** C1.  A username that is not in the credential table, and a username
    that is in it presented with a password different from the stored
    one, are both rejected by [authenticate] with the same exception:
    status 401, detail "Invalid credentials", which the framework sends
    as the body [{"detail": "Invalid credentials"}]. *)
Theorem authenticate_rejects (credentials : HTTPBasicCredentials) :
  users_db !! cred_username credentials = None
  \/ (exists user, users_db !! cred_username credentials = Some user
        /\ password user <> cred_password credentials) ->
  authenticate credentials = Raises (HTTPException 401 "Invalid credentials")
  /\ exception_response (HTTPException 401 "Invalid credentials")
     = JSONResponse 401 (JObj [("detail", JStr "Invalid credentials")]).
Proof.
  intros H. split; [|reflexivity].
  unfold authenticate.
  destruct H as [-> | (user & -> & Hpw)]; [reflexivity|].
  rewrite bool_decide_eq_true_2 by assumption. reflexivity.
Qed.

Lemma authenticate_rejects_witness :
  (users_db !! "Mallory" = None
   /\ authenticate (mkCredentials "Mallory" "password123")
      = Raises (HTTPException 401 "Invalid credentials"))
  /\ (users_db !! "Tony" = Some (mkUser "password123" "engineering")
      /\ "password123" <> "Password123"
      /\ authenticate (mkCredentials "Tony" "Password123")
         = Raises (HTTPException 401 "Invalid credentials")).
Proof.
  split.
  - split; [reflexivity|].
    apply (authenticate_rejects (mkCredentials "Mallory" "password123")).
    left. reflexivity.
  - split; [reflexivity|]. split; [discriminate|].
    apply (authenticate_rejects (mkCredentials "Tony" "Password123")).
    right. exists (mkUser "password123" "engineering").
    split; [reflexivity|discriminate].
Defined.

(** C4.  A username and password that match a stored record are
    accepted, and the identity returned carries the username presented
    and the role stored for it; for Tony with password123 the identity
    is [{username: "Tony", role: "engineering"}]. *)
Theorem authenticate_accepts :
  (forall (credentials : HTTPBasicCredentials) (user : UserRecord),
     users_db !! cred_username credentials = Some user ->
     password user = cred_password credentials ->
     authenticate credentials
     = Returns (mkIdentity (cred_username credentials) (role user)))
  /\ authenticate (mkCredentials "Tony" "password123")
     = Returns (mkIdentity "Tony" "engineering").
Proof.
  split; [|reflexivity].
  intros credentials user Hlookup Hpw. unfold authenticate.
  rewrite Hlookup. rewrite bool_decide_eq_false_2; [reflexivity|].
  intros Hne. apply Hne. exact Hpw.
Qed.

Lemma authenticate_accepts_witness :
  users_db !! "Sam" = Some (mkUser "financepass" "finance")
  /\ authenticate (mkCredentials "Sam" "financepass")
     = Returns (mkIdentity "Sam" "finance").
Proof.
  split; [reflexivity|].
  apply (proj1 authenticate_accepts (mkCredentials "Sam" "financepass")
               (mkUser "financepass" "finance")); reflexivity.
Defined.

(** ** The gateway *)

Section Gateway.

Context {W Retriever QA LLM : Type}.
Variable llm : LLM.
Variable get_documents_by_role : string -> W -> Outcome json * W.
Variable load_vector_store : string -> W -> Outcome Retriever * W.
Variable from_chain_type : LLM -> Retriever -> W -> Outcome QA * W.
Variable run : QA -> string -> W -> Outcome string * W.
Variable here : FilePath.

Abbreviation application :=
  (app llm get_documents_by_role load_vector_store from_chain_type run here).
Abbreviation process :=
  (run_process llm get_documents_by_role load_vector_store from_chain_type run here).

Lemma protected_cases (req : Request) :
  protected req = true ->
  (method req = GET /\ is_path "/api/login" (path req) = true)
  \/ (method req = GET /\ is_path "/api/role-docs" (path req) = true)
  \/ (method req = GET /\ is_path "/api/test" (path req) = true)
  \/ (method req = POST /\ is_path "/api/chat" (path req) = true).
Proof.
  unfold protected. intros H.
  apply orb_true_iff in H as [H|H]; apply andb_true_iff in H as [Hm Hp];
    apply bool_decide_eq_true_1 in Hm.
  - apply orb_true_iff in Hp as [Hp|Hp];
      [apply orb_true_iff in Hp as [Hp|Hp]|]; auto.
  - auto 6.
Qed.


Lemma bind_returns {A B : Type} (m : M W A) (k : A -> M W B)
    (st st' : State W) (a : A) :
  m st = (Returns a, st') -> (m ≫= k) st = k a st'.
Proof. intros H. unfold mbind, M_bind. rewrite H. reflexivity. Qed.

(** *** The route table as a decision *)

Lemma is_path_cases (literal p : string) :
  is_path literal p = true ->
  p = literal \/ p = literal +:+ String line_feed EmptyString.
Proof.
  unfold is_path. intros H. apply orb_true_iff in H as [H|H];
    apply bool_decide_eq_true_1 in H; auto.
Qed.

Lemma is_path_exact (literal : string) : is_path literal literal = true.
Proof. unfold is_path. rewrite bool_decide_eq_true_2; reflexivity. Qed.

(** The route table read as a decision on the path and the method. *)
Lemma router_table (req : Request) :
  router llm get_documents_by_role load_vector_store from_chain_type run here req
  = if is_path "/openapi.json" (path req)
    then documentation_route "/openapi.json" req
    else if is_path "/docs" (path req) then documentation_route "/docs" req
    else if is_path "/docs/oauth2-redirect" (path req)
         then documentation_route "/docs/oauth2-redirect" req
    else if is_path "/redoc" (path req) then documentation_route "/redoc" req
    else if is_path "/api/login" (path req) then
      if bool_decide (method req = GET) then with_user login req ""
      else raise method_not_allowed
    else if is_path "/api/role-docs" (path req) then
      if bool_decide (method req = GET)
      then with_user (list_docs_by_role get_documents_by_role) req ""
      else raise method_not_allowed
    else if is_path "/api/test" (path req) then
      if bool_decide (method req = GET) then with_user test req ""
      else raise method_not_allowed
    else if is_path "/api/chat" (path req) then
      if bool_decide (method req = POST)
      then with_user_and_body
             (chat_endpoint llm load_vector_store from_chain_type run) req ""
      else frontend here req
    else if String.prefix "/static/" (path req) then
      match rest_of_path (String.substring 8 (String.length (path req) - 8)
                                           (path req)) with
      | Some asset => StaticFiles req asset
      | None =>
          after_mount llm get_documents_by_role load_vector_store
            from_chain_type run here req
      end
    else after_mount llm get_documents_by_role load_vector_store
           from_chain_type run here req.
Proof.
  destruct req as [m p a b]. simpl.
  destruct (is_path "/openapi.json" p) eqn:D1.
  { apply is_path_cases in D1 as [->| ->]; destruct m; reflexivity. }
  destruct (is_path "/docs" p) eqn:D2.
  { apply is_path_cases in D2 as [->| ->]; destruct m; reflexivity. }
  destruct (is_path "/docs/oauth2-redirect" p) eqn:D3.
  { apply is_path_cases in D3 as [->| ->]; destruct m; reflexivity. }
  destruct (is_path "/redoc" p) eqn:D4.
  { apply is_path_cases in D4 as [->| ->]; destruct m; reflexivity. }
  destruct (is_path "/api/login" p) eqn:E1.
  { apply is_path_cases in E1 as [->| ->]; destruct m; reflexivity. }
  destruct (is_path "/api/role-docs" p) eqn:E2.
  { apply is_path_cases in E2 as [->| ->]; destruct m; reflexivity. }
  destruct (is_path "/api/test" p) eqn:E3.
  { apply is_path_cases in E3 as [->| ->]; destruct m; reflexivity. }
  destruct (is_path "/api/chat" p) eqn:E4.
  { apply is_path_cases in E4 as [->| ->]; destruct m; reflexivity. }
  destruct (is_path "/" p) eqn:R.
  { apply is_path_cases in R as [->| ->]; destruct m; reflexivity. }
  unfold router, routes, select, matches, match_path, after_mount, unmatched,
    frontend.
  cbn [path method authorization payload].
  rewrite D1, D2, D3, D4, E1, E2, E3, E4, R.
  change ("/static" +:+ "/") with "/static/".
  change (String.length "/static/") with 8%nat.
  change (String.length "/") with 1%nat.
  destruct (String.prefix "/static/" p);
    [destruct (rest_of_path (String.substring 8 (String.length p - 8) p));
       [reflexivity|]|];
    (destruct (String.prefix "/" p);
       [destruct (rest_of_path (String.substring 1 (String.length p - 1) p));
          [destruct m; reflexivity|]|];
     reflexivity).
Qed.

(** Which endpoint the router runs for each protected route. *)
Lemma router_protected (req : Request) :
  protected req = true ->
  router llm get_documents_by_role load_vector_store from_chain_type run here req
  = if is_path "/api/login" (path req) then with_user login req ""
    else if is_path "/api/role-docs" (path req)
         then with_user (list_docs_by_role get_documents_by_role) req ""
    else if is_path "/api/test" (path req) then with_user test req ""
    else with_user_and_body
           (chat_endpoint llm load_vector_store from_chain_type run) req "".
Proof.
  intros H. apply protected_cases in H.
  destruct req as [m p a b]. simpl in H.
  destruct H as [[-> Hp]|[[-> Hp]|[[-> Hp]|[-> Hp]]]];
    apply is_path_cases in Hp as [->| ->]; reflexivity.
Qed.




Lemma accepted_dependency (req : Request) (st : State W)
    (c : HTTPBasicCredentials) (user : Identity) :
  authorization req = AuthBasic c ->
  authenticate c = Returns user ->
  depends_authenticate req st = (Returns user, st).
Proof.
  intros Ha Hu. unfold depends_authenticate, mbind, M_bind, lift.
  rewrite Ha. simpl. rewrite Hu. reflexivity.
Qed.

Lemma router_role_docs (req : Request) :
  method req = GET -> path req = "/api/role-docs" ->
  router llm get_documents_by_role load_vector_store from_chain_type run here req
  = with_user (list_docs_by_role get_documents_by_role) req "".
Proof. destruct req as [m p a b]. simpl. intros -> ->. reflexivity. Qed.


Lemma role_docs_answer (req : Request) (st : State W)
    (c : HTTPBasicCredentials) (user : Identity) :
  method req = GET ->
  path req = "/api/role-docs" ->
  authorization req = AuthBasic c ->
  authenticate c = Returns user ->
  application req st
  = (match fst (get_documents_by_role (id_role user) (world st)) with
     | Returns documents => JSONResponse 200 documents
     | Raises e => exception_response e
     end,
     mkState (snd (get_documents_by_role (id_role user) (world st)))
             (trace st ++ [Called_get_documents_by_role (id_role user)])).
Proof.
  intros Hm Hp Ha Hu.
  unfold app. rewrite (router_role_docs req Hm Hp). unfold with_user.
  rewrite (bind_returns _ _ _ _ _ (accepted_dependency req st c user Ha Hu)).
  unfold list_docs_by_role, call, mbind, M_bind, mret, M_ret.
  destruct (get_documents_by_role (id_role user) (world st)) as [[docs|e] w'];
    reflexivity.
Qed.

(** C3.  An authenticated [GET /api/role-docs] makes one call to
    [get_documents_by_role], with the role stored for the caller, and
    answers with what that call produced: its value as the body of a
    200, or the response for the exception it raised. *)
Theorem role_docs_is_loader_result_for_caller (req : Request) (st : State W)
    (c : HTTPBasicCredentials) (user : Identity) :
  method req = GET ->
  path req = "/api/role-docs" ->
  authorization req = AuthBasic c ->
  authenticate c = Returns user ->
  (exists rec, users_db !! cred_username c = Some rec /\ id_role user = role rec)
  /\ application req st
     = (match fst (get_documents_by_role (id_role user) (world st)) with
        | Returns documents => JSONResponse 200 documents
        | Raises e => exception_response e
        end,
        mkState (snd (get_documents_by_role (id_role user) (world st)))
                (trace st ++ [Called_get_documents_by_role (id_role user)])).
Proof.
  intros Hm Hp Ha Hu. split.
  - destruct (authenticate_returns_inv c user Hu) as (rec & Hl & _ & ->).
    exists rec. split; [exact Hl|reflexivity].
  - exact (role_docs_answer req st c user Hm Hp Ha Hu).
Qed.





(** *** The frontend routes *)

Lemma substring_all (s : string) :
  String.substring 0 (String.length s) s = s.
Proof. induction s as [|ch s IH]; simpl; [reflexivity|]. rewrite IH. reflexivity. Qed.


(** A path that starts with a slash is the slash and what the
    catch-all pattern reads after it. *)
Lemma after_slash (p : string) :
  String.prefix "/" p = true ->
  p = String "/" (String.substring 1 (String.length p - 1) p).
Proof.
  intros H. apply String.prefix_correct in H.
  destruct p as [|c p']; [discriminate H|].
  simpl in H. assert (Hc : c = "/"%char).
  { destruct p'; simpl in H; congruence. }
  subst c. simpl. rewrite Nat.sub_0_r, substring_all. reflexivity.
Qed.

Lemma one_line_after_slash (p : string) :
  String.prefix "/" p = true ->
  one_line p = true ->
  rest_of_path (String.substring 1 (String.length p - 1) p)
  = Some (chomp (String.substring 1 (String.length p - 1) p)).
Proof.
  intros Hslash Hline. unfold rest_of_path, one_line in *.
  apply negb_true_iff in Hline.
  rewrite (after_slash p Hslash) in Hline.
  set (rest := String.substring 1 (String.length p - 1) p) in *.
  destruct rest as [|c rest']; [reflexivity|].
  assert (Hskip : has_line_feed (chomp (String "/" (String c rest')))
                  = has_line_feed (chomp (String c rest'))) by reflexivity.
  rewrite Hskip in Hline. rewrite Hline. reflexivity.
Qed.


(** A [GET] on one line whose path is not a documentation path, is
    none of the three [GET] API routes and is not under the static
    mount ends in one of the two frontend handlers, and both return the
    entry document. *)
Lemma frontend_routes (req : Request) (st : State W) :
  method req = GET ->
  String.prefix "/" (path req) = true ->
  one_line (path req) = true ->
  documentation_path (path req) = false ->
  is_path "/api/login" (path req) = false ->
  is_path "/api/role-docs" (path req) = false ->
  is_path "/api/test" (path req) = false ->
  String.prefix "/static/" (path req) = false ->
  application req st = (FileResponse (index_html here), st).
Proof.
  intros Hm Hslash Hline Hdoc H1 H2 H3 Hstatic.
  unfold documentation_path in Hdoc.
  apply orb_false_iff in Hdoc as [Hdoc D4].
  apply orb_false_iff in Hdoc as [Hdoc D3].
  apply orb_false_iff in Hdoc as [D1 D2].
  unfold app. rewrite router_table.
  rewrite D1, D2, D3, D4, H1, H2, H3, Hstatic. unfold after_mount, frontend.
  rewrite Hm, Hslash, (one_line_after_slash _ Hslash Hline).
  destruct (is_path "/api/chat" (path req)), (is_path "/" (path req));
    reflexivity.
Qed.


(** C10.  A [GET] whose path has no route of its own (a path under
    [/api/] included), is not one of the four documentation paths of
    the framework and holds no line feed before its last character, is
    taken by the catch-all route: whatever the [Authorization] header,
    the answer is the frontend entry document, not a 404 and not a 401,
    and no state is touched. *)
Theorem catch_all_serves_index (req : Request) (st : State W) :
  method req = GET ->
  String.prefix "/" (path req) = true ->
  explicit_route (path req) = false ->
  documentation_path (path req) = false ->
  one_line (path req) = true ->
  application req st = (FileResponse (index_html here), st)
  /\ status_of (fst (application req st)) <> Some 404
  /\ status_of (fst (application req st)) <> Some 401.
Proof.
  intros Hm Hslash Hexp Hdoc Hline. unfold explicit_route in Hexp.
  apply orb_false_iff in Hexp as [Hexp Hstatic].
  apply orb_false_iff in Hexp as [Hexp _].
  apply orb_false_iff in Hexp as [Hexp _].
  apply orb_false_iff in Hexp as [Hexp H3].
  apply orb_false_iff in Hexp as [H1 H2].
  assert (H' : application req st = (FileResponse (index_html here), st)).
  { apply frontend_routes; assumption. }
  rewrite H'. simpl. repeat split; discriminate.
Qed.

(** *** Start-up *)

Lemma walk_app (loc : Location) (cs ds : list string) :
  walk loc (cs ++ ds) = walk loc cs ≫= fun loc' => walk loc' ds.
Proof.
  revert loc. induction cs as [|c cs IH]; intros loc; [reflexivity|].
  simpl. destruct loc as [above [content|es]]; [reflexivity|].
  destruct (bool_decide (c = "") || bool_decide (c = ".")); [apply IH|].
  destruct (bool_decide (c = "..")).
  - destruct above as [|parent above']; apply IH.
  - destruct (find_entry c es); [apply IH|reflexivity].
Qed.

(** Nothing exists below a path that does not exist. *)
Lemma missing_parent (fs : FileSystem) (p : FilePath) (cs : list string) :
  os_path_exists fs p = false -> os_path_exists fs (os_path_join p cs) = false.
Proof.
  unfold os_path_exists, locate, os_path_join. simpl.
  assert (Hfrom : forall start,
    match walk start (components p) with Some _ => true | None => false end
    = false ->
    match walk start (components p ++ cs) with Some _ => true | None => false end
    = false).
  { intros start. rewrite walk_app.
    destruct (walk start (components p)); simpl; [discriminate|reflexivity]. }
  destruct (absolute p); simpl; [apply Hfrom|].
  destruct (walk ([], root fs) (cwd fs)) as [start|]; simpl;
    [apply Hfrom|reflexivity].
Qed.

Lemma serve_never_checks (f : Request -> State W -> Response * State W)
    (fs : FileSystem) (st : State W) (inputs : list Input) :
  List.filter is_check (fst (serve f fs st inputs)) = [].
Proof.
  revert fs st. induction inputs as [|[req|fs'] rest IH]; intros fs st; simpl.
  - reflexivity.
  - destruct (f req st) as [resp st'].
    specialize (IH fs st'). destruct (serve f fs st' rest) as [evs st''].
    simpl in *. exact IH.
  - apply IH.
Qed.

(** C8.  When the frontend build directory (or the [static] directory
    inside it) does not exist on the file system the process starts on,
    the process aborts with the [RuntimeError] of line 89 having served
    nothing, whatever requests arrive and whatever is created on the
    file system afterwards.  In every run the existence check is made
    once, at start-up. *)
Theorem missing_build_aborts (fs : FileSystem) (st : State W)
    (inputs : list Input) :
  (os_path_exists fs (BUILD_DIR here) = false
   \/ os_path_exists fs (STATIC_DIR here) = false ->
   process fs st inputs
   = (Aborted (RuntimeError ("React build not found at: "
                             +:+ path_str (STATIC_DIR here))),
      [Checked_exists (STATIC_DIR here) false], st))
  /\ length (List.filter is_check (snd (fst (process fs st inputs)))) = 1%nat.
Proof.
  split.
  - intros H.
    assert (Hs : os_path_exists fs (STATIC_DIR here) = false).
    { destruct H as [H|H]; [|exact H]. apply missing_parent. exact H. }
    unfold run_process, startup. rewrite Hs. reflexivity.
  - unfold run_process, startup.
    destruct (os_path_exists fs (STATIC_DIR here)); simpl; [|reflexivity].
    pose proof (serve_never_checks application fs st inputs) as Hserve.
    destruct (serve application fs st inputs) as [evs st']. simpl in *.
    rewrite Hserve. reflexivity.
Qed.

End Gateway.

(** ** The properties at work on the concrete deployment *)

(** A process started on a built checkout serves; removing the build
    afterwards does not stop it, it only leaves the entry document
    without bytes to send. *)
Example built_checkout_serves :
  run_process tt Sample.get_documents_by_role Sample.load_vector_store
    Sample.from_chain_type Sample.run Sample.here Sample.built Sample.idle
    [Incoming (mkRequest GET "/" AuthAbsent None);
     FileSystemChange Sample.unbuilt;
     Incoming (mkRequest GET "/dashboard" AuthAbsent None)]
  = (Serving,
     [Checked_exists (STATIC_DIR Sample.here) true;
      Served (mkRequest GET "/" AuthAbsent None)
             (FileResponse (index_html Sample.here)) (Some "<html>");
      Served (mkRequest GET "/dashboard" AuthAbsent None)
             (FileResponse (index_html Sample.here)) None],
     Sample.idle).
Proof. reflexivity. Qed.

(** The generation pipeline of the concrete deployment, end to end. *)
Example chat_trace :
  Sample.application
    (mkRequest POST "/api/chat" (AuthBasic Sample.tony)
               (Some (mkChatRequest "hello")))
    Sample.idle
  = (JSONResponse 200
       (JObj [("user", JStr "Tony"); ("role", JStr "engineering");
              ("query", JStr "hello");
              ("response", JStr "index:engineering?hello")]),
     mkState 3%nat
       [Printed "📨 Query from Tony (engineering): hello";
        Called_load_vector_store "engineering";
        Called_from_chain_type;
        Called_run "hello"]).
Proof. reflexivity. Qed.

(** The line of line 81 for an [HTTPException]: its status code, a
    colon and its detail. *)
Example error_line_of_http_exception :
  error_line (HTTPException 404 "nope") = "❌ Error during chat: 404: nope".
Proof. reflexivity. Qed.

(** A line feed at the end of the path does not keep a route from
    fitting: the login route still asks for credentials, and the
    documentation routes answer [HEAD] as well as [GET]. *)
Example routes_fit_as_expressions :
  fst (Sample.application
         (mkRequest GET ("/api/login" +:+ String line_feed EmptyString)
                    AuthAbsent None) Sample.idle)
  = JSONResponse 401 (JObj [("detail", JStr "Not authenticated")])
  /\ fst (Sample.application (mkRequest HEAD "/docs" AuthAbsent None)
                             Sample.idle)
     = DocumentationResponse "/docs".
Proof. vm_compute. split; reflexivity. Qed.


Lemma role_docs_is_loader_result_for_caller_witness :
  authenticate Sample.sam = Returns (mkIdentity "Sam" "finance")
  /\ Sample.application
       (mkRequest GET "/api/role-docs" (AuthBasic Sample.sam) None) Sample.idle
     = (JSONResponse 200 (JArr [JStr "finance/handbook.md"]),
        mkState 1%nat [Called_get_documents_by_role "finance"]).
Proof.
  split; [reflexivity|].
  exact (proj2 (role_docs_is_loader_result_for_caller tt
                  Sample.get_documents_by_role Sample.load_vector_store
                  Sample.from_chain_type Sample.run Sample.here
                  (mkRequest GET "/api/role-docs" (AuthBasic Sample.sam) None)
                  Sample.idle Sample.sam (mkIdentity "Sam" "finance")
                  eq_refl eq_refl eq_refl eq_refl)).
Defined.





Lemma catch_all_serves_index_witness :
  let req := mkRequest GET "/api/nonexistent" AuthAbsent None in
  explicit_route (path req) = false
  /\ documentation_path (path req) = false
  /\ one_line (path req) = true
  /\ Sample.application req Sample.idle
     = (FileResponse (index_html Sample.here), Sample.idle).
Proof.
  intros req. split; [reflexivity|]. split; [reflexivity|].
  split; [reflexivity|].
  exact (proj1 (catch_all_serves_index tt Sample.get_documents_by_role
                  Sample.load_vector_store Sample.from_chain_type Sample.run
                  Sample.here req Sample.idle
                  eq_refl eq_refl eq_refl eq_refl eq_refl)).
Defined.

(** The three claims above, as first worded, at the inputs where the
    program does otherwise. *)



(** A [GET] whose path holds a line feed between two characters fits
    no route, the catch-all included, and is answered 404. *)
Lemma catch_all_serves_index_counterexample :
  let req := mkRequest GET ("/api/a" +:+ String line_feed "b") AuthAbsent None in
  method req = GET
  /\ existsb (fits req)
       (routes tt Sample.get_documents_by_role Sample.load_vector_store
               Sample.from_chain_type Sample.run Sample.here) = false
  /\ status_of (fst (Sample.application req Sample.idle)) = Some 404
  /\ fst (Sample.application req Sample.idle)
     <> FileResponse (index_html Sample.here).
Proof.
  intros req. vm_compute.
  repeat split; try reflexivity; discriminate.
Qed.

Lemma missing_build_aborts_witness :
  let inputs := [FileSystemChange Sample.built;
                 Incoming (mkRequest GET "/" AuthAbsent None)] in
  os_path_exists Sample.unbuilt (BUILD_DIR Sample.here) = false
  /\ run_process tt Sample.get_documents_by_role Sample.load_vector_store
       Sample.from_chain_type Sample.run Sample.here
       Sample.unbuilt Sample.idle inputs
     = (Aborted (RuntimeError
          "React build not found at: /srv/app/../frontend/build/static"),
        [Checked_exists (STATIC_DIR Sample.here) false], Sample.idle).
Proof.
  intros inputs. split; [reflexivity|].
  apply (proj1 (missing_build_aborts tt Sample.get_documents_by_role
                  Sample.load_vector_store Sample.from_chain_type Sample.run
                  Sample.here Sample.unbuilt Sample.idle inputs)).
  left. reflexivity.
Defined.

(** * Further properties of the gateway *)

Section Dispatch.

Context {W Retriever QA LLM : Type}.
Variable llm : LLM.
Variable get_documents_by_role : string -> W -> Outcome json * W.
Variable load_vector_store : string -> W -> Outcome Retriever * W.
Variable from_chain_type : LLM -> Retriever -> W -> Outcome QA * W.
Variable run : QA -> string -> W -> Outcome string * W.
Variable here : FilePath.

Abbreviation the_router :=
  (router llm get_documents_by_role load_vector_store from_chain_type run here).
Abbreviation the_app :=
  (app llm get_documents_by_role load_vector_store from_chain_type run here).
Abbreviation the_routes :=
  (routes llm get_documents_by_role load_vector_store from_chain_type run here).
Abbreviation chat :=
  (chat_endpoint llm load_vector_store from_chain_type run).

(** The endpoint of a protected route, from its exact method and
    path. *)
Lemma router_exact (req : Request) :
  protected req = true ->
  the_router req
  = if is_path "/api/login" (path req) then with_user login req ""
    else if is_path "/api/role-docs" (path req)
         then with_user (list_docs_by_role get_documents_by_role) req ""
    else if is_path "/api/test" (path req) then with_user test req ""
    else with_user_and_body chat req "".
Proof. apply router_protected. Qed.

Ltac on_route Hm Hp :=
  unfold app;
  rewrite router_exact by (unfold protected; rewrite Hm, Hp; reflexivity);
  rewrite Hp; simpl.

(** *** The two greeting endpoints (lines 52-54 and 60-62) *)

(** An authenticated [GET /api/login] is answered 200 with the welcome
    message built from the caller's username and with the caller's
    role; no collaborator is called and nothing is printed. *)
Theorem login_greets_caller (req : Request) (st : State W)
    (c : HTTPBasicCredentials) (user : Identity) :
  method req = GET ->
  path req = "/api/login" ->
  authorization req = AuthBasic c ->
  authenticate c = Returns user ->
  the_app req st
  = (JSONResponse 200
       (JObj [("message", JStr ("Welcome " +:+ id_username user +:+ "!"));
              ("role", JStr (id_role user))]),
     st).
Proof.
  intros Hm Hp Ha Hu. on_route Hm Hp.
  unfold with_user.
  rewrite (bind_returns _ _ _ _ _ (accepted_dependency req st c user Ha Hu)).
  reflexivity.
Qed.

(** An authenticated [GET /api/test] is answered 200 with the greeting
    built from the caller's username and with the caller's role; no
    collaborator is called and nothing is printed. *)
Theorem test_greets_caller (req : Request) (st : State W)
    (c : HTTPBasicCredentials) (user : Identity) :
  method req = GET ->
  path req = "/api/test" ->
  authorization req = AuthBasic c ->
  authenticate c = Returns user ->
  the_app req st
  = (JSONResponse 200
       (JObj [("message",
               JStr ("Hello " +:+ id_username user +:+ "! You can now chat."));
              ("role", JStr (id_role user))]),
     st).
Proof.
  intros Hm Hp Ha Hu. on_route Hm Hp.
  unfold with_user.
  rewrite (bind_returns _ _ _ _ _ (accepted_dependency req st c user Ha Hu)).
  reflexivity.
Qed.

(** *** Routes that shadow, methods that do not fit *)

Lemma select_last_none (l : list (Route (W:=W))) (r : Route)
    (req : Request) (partial : option Route) :
  fst (matches r req) = NONE ->
  select (l ++ [r])%list req partial = select l req partial.
Proof.
  intros Hnone. revert partial.
  induction l as [|a l IH]; intros partial; simpl.
  - destruct (matches r req) as [[| |] param]; simpl in Hnone;
      try discriminate Hnone; reflexivity.
  - destruct (matches a req) as [[| |] param]; auto.
Qed.

(** The second registration of [/] (lines 100-102) never takes a
    request: with or without it the router selects the same route for
    every request, and the same routes fit every path. *)
Theorem read_root_is_shadowed (req : Request) :
  select the_routes req None = select (removelast the_routes) req None
  /\ existsb (fits req) the_routes = existsb (fits req) (removelast the_routes).
Proof.
  destruct (is_path "/" (path req)) eqn:Hroot.
  - destruct req as [m p a b]. simpl in Hroot.
    apply is_path_cases in Hroot as [->| ->]; destruct m; split; reflexivity.
  - set (shorter := removelast the_routes).
    set (last_route := List.last the_routes (Mount "" StaticFiles)).
    change the_routes with (shorter ++ [last_route])%list.
    assert (Hnone : matches last_route req = (NONE, "")).
    { unfold last_route, matches, match_path. simpl. rewrite Hroot.
      reflexivity. }
    split.
    + apply select_last_none. rewrite Hnone. reflexivity.
    + assert (Hfit : fits req last_route = false).
      { unfold fits. rewrite Hnone. reflexivity. }
      rewrite existsb_app.
      change (existsb (fits req) [last_route])
        with (fits req last_route || false).
      rewrite Hfit, !orb_false_r. reflexivity.
Qed.

(** A request on one line with a method other than [GET] and
    [OPTIONS], outside the static mount, is answered 405 unless it is
    the [POST] to the chat route or a [HEAD] to a documentation route:
    no dependency is solved, no endpoint runs, the state is
    untouched. *)
Theorem other_methods_are_refused (req : Request) (st : State W) :
  method req <> GET ->
  method req <> OPTIONS ->
  String.prefix "/" (path req) = true ->
  String.prefix "/static/" (path req) = false ->
  one_line (path req) = true ->
  ~ (method req = POST /\ is_path "/api/chat" (path req) = true) ->
  ~ (method req = HEAD /\ documentation_path (path req) = true) ->
  the_app req st
  = (JSONResponse 405 (JObj [("detail", JStr "Method Not Allowed")]), st).
Proof.
  intros Hget _ Hslash Hstatic Hline Hchat Hhead.
  assert (Hdoc : documentation_path (path req) = true ->
                 allows [GET; HEAD] (method req) = false).
  { intros Hd. destruct (method req); try reflexivity;
      [contradiction|exfalso; apply Hhead; split; [reflexivity|exact Hd]]. }
  unfold documentation_path in Hdoc.
  unfold app. rewrite router_table. unfold documentation_route.
  destruct (is_path "/openapi.json" (path req)).
  { rewrite Hdoc by reflexivity. reflexivity. }
  destruct (is_path "/docs" (path req)).
  { rewrite Hdoc by reflexivity. reflexivity. }
  destruct (is_path "/docs/oauth2-redirect" (path req)).
  { rewrite Hdoc by reflexivity. reflexivity. }
  destruct (is_path "/redoc" (path req)).
  { rewrite Hdoc by reflexivity. reflexivity. }
  unfold after_mount, frontend.
  rewrite (bool_decide_eq_false_2 _ Hget), Hstatic, Hslash,
    (one_line_after_slash _ Hslash Hline).
  destruct (is_path "/api/login" (path req)); [reflexivity|].
  destruct (is_path "/api/role-docs" (path req)); [reflexivity|].
  destruct (is_path "/api/test" (path req)); [reflexivity|].
  destruct (is_path "/api/chat" (path req)).
  { rewrite bool_decide_eq_false_2; [reflexivity|].
    intros Hpost. apply Hchat. split; [exact Hpost|reflexivity]. }
  destruct (is_path "/" (path req)); reflexivity.
Qed.

(** A [GET] on the chat path does not reach [chat_endpoint]: it falls
    through to the catch-all route and is answered with the frontend
    entry document, whatever the credentials. *)
Theorem get_on_chat_path_serves_frontend (req : Request) (st : State W) :
  method req = GET ->
  path req = "/api/chat" ->
  the_app req st = (FileResponse (index_html here), st).
Proof.
  intros Hm Hp. unfold app. rewrite router_table. unfold frontend.
  rewrite Hp, Hm. reflexivity.
Qed.



(** *** The chat endpoint (lines 67-82) *)







(** *** Requests that touch nothing *)

(** Dependency resolution and the endpoints that call no collaborator
    return the state they were given. *)
Ltac settle_dependency a Hquiet :=
  let c := fresh "c" in
  let Ea := fresh "Ea" in
  destruct a as [| | |c];
    [| | |destruct (authenticate c) eqn:Ea];
    simpl in Hquiet; rewrite ?Ea in Hquiet; simpl in Hquiet;
    try discriminate Hquiet;
    eexists; intros ?;
    unfold with_user, depends_authenticate, mbind, M_bind, lift, security;
    simpl; rewrite ?Ea; reflexivity.

Lemma quiet_router (req : Request) :
  reaches_collaborators req = false ->
  exists o : Outcome Response, forall st : State W, the_router req st = (o, st).
Proof.
  intros Hquiet. rewrite router_table.
  destruct req as [m p a b].
  unfold reaches_collaborators in Hquiet.
  unfold documentation_route, after_mount, unmatched, frontend.
  cbn [method path authorization payload] in *.
  destruct (is_path "/openapi.json" p).
  { destruct (allows [GET; HEAD] m); eexists; intros ?; reflexivity. }
  destruct (is_path "/docs" p).
  { destruct (allows [GET; HEAD] m); eexists; intros ?; reflexivity. }
  destruct (is_path "/docs/oauth2-redirect" p).
  { destruct (allows [GET; HEAD] m); eexists; intros ?; reflexivity. }
  destruct (is_path "/redoc" p).
  { destruct (allows [GET; HEAD] m); eexists; intros ?; reflexivity. }
  destruct (is_path "/api/login" p).
  { destruct (bool_decide (m = GET)); [|eexists; intros ?; reflexivity].
    clear Hquiet. assert (Hquiet : true = true) by reflexivity.
    settle_dependency a Hquiet. }
  destruct (is_path "/api/role-docs" p).
  { destruct (bool_decide (m = GET)); [|eexists; intros ?; reflexivity].
    settle_dependency a Hquiet. }
  destruct (is_path "/api/test" p).
  { destruct (bool_decide (m = GET)); [|eexists; intros ?; reflexivity].
    clear Hquiet. assert (Hquiet : true = true) by reflexivity.
    settle_dependency a Hquiet. }
  destruct (is_path "/api/chat" p).
  { destruct (bool_decide (m = POST)).
    - unfold with_user_and_body. cbn [payload].
      destruct b as [|fitting]; [eexists; intros ?; reflexivity|].
      rewrite andb_false_r, orb_false_l in Hquiet.
      destruct a as [| | |c]; [| | |destruct (authenticate c) eqn:Ea];
        simpl in Hquiet; rewrite ?Ea in Hquiet; simpl in Hquiet;
        try discriminate Hquiet;
        eexists; intros ?;
        unfold depends_authenticate, mbind, M_bind, lift, security;
        simpl; rewrite ?Ea; reflexivity.
    - destruct (bool_decide (m = GET)); eexists; intros ?; reflexivity. }
  assert (Hrest : forall k : M W Response,
            (exists o, forall st, k st = (o, st)) ->
            exists o, forall st : State W,
              (if is_path "/" p then
                 if bool_decide (m = GET)
                 then mret (FileResponse (index_html here))
                 else raise method_not_allowed
               else if String.prefix "/" p then
                 match rest_of_path
                         (String.substring 1 (String.length p - 1) p) with
                 | Some _ =>
                     if bool_decide (m = GET)
                     then mret (FileResponse (index_html here))
                     else raise method_not_allowed
                 | None => k
                 end
               else k) st = (o, st)).
  { intros k Hk.
    destruct (is_path "/" p);
      [destruct (bool_decide (m = GET)); eexists; intros ?; reflexivity|].
    destruct (String.prefix "/" p); [|exact Hk].
    destruct (rest_of_path (String.substring 1 (String.length p - 1) p));
      [|exact Hk].
    destruct (bool_decide (m = GET)); eexists; intros ?; reflexivity. }
  assert (Hunmatched : exists o, forall st : State W,
            (if bool_decide (p <> "/")
                && existsb (fits (Received m (toggle_slash p) a b)) the_routes
             then mret (RedirectResponse (toggle_slash p))
             else raise not_found) st = (o, st)).
  { destruct (bool_decide (p <> "/")
              && existsb (fits (Received m (toggle_slash p) a b)) the_routes);
      eexists; intros ?; reflexivity. }
  destruct (String.prefix "/static/" p); [|exact (Hrest _ Hunmatched)].
  destruct (rest_of_path (String.substring 8 (String.length p - 8) p));
    [eexists; intros ?; reflexivity|exact (Hrest _ Hunmatched)].
Qed.

Lemma quiet_request (req : Request) :
  reaches_collaborators req = false ->
  exists r : Response, forall st : State W, the_app req st = (r, st).
Proof.
  intros Hquiet. destruct (quiet_router req Hquiet) as [o Ho].
  exists (match o with Returns r => r | Raises e => exception_response e end).
  intros st. unfold app. rewrite Ho. destruct o; reflexivity.
Qed.

(** No session state: except for an accepted request to one of the two
    role-scoped routes, handling a request changes nothing (no
    collaborator call, no printed line, the same world) and the answer
    does not depend on what was handled before. *)
Theorem other_requests_are_stateless (req : Request) (st st' : State W) :
  reaches_collaborators req = false ->
  snd (the_app req st) = st
  /\ fst (the_app req st) = fst (the_app req st').
Proof.
  intros Hquiet. destruct (quiet_request req Hquiet) as [r Hr].
  rewrite !Hr. split; reflexivity.
Qed.

(** The roles an accepted request hands over on one of the two
    role-scoped routes, however the path is written. *)
Lemma scoping_on_route (req : Request) (w : W)
    (c : HTTPBasicCredentials) (user : Identity) (r : string) :
  (method req = GET /\ is_path "/api/role-docs" (path req) = true)
  \/ (method req = POST /\ is_path "/api/chat" (path req) = true) ->
  authorization req = AuthBasic c ->
  authenticate c = Returns user ->
  r ∈ scoping_roles (trace (snd (the_app req (mkState w [])))) ->
  r = id_role user.
Proof.
  intros Hroute Ha Hu.
  assert (Hdep := accepted_dependency (W:=W) req (mkState w []) c user Ha Hu).
  unfold app. rewrite router_table.
  destruct Hroute as [[Hm Hp]|[Hm Hp]];
    apply is_path_cases in Hp as [Hp|Hp]; rewrite Hp, Hm; simpl.
  1,2: unfold with_user; rewrite (bind_returns _ _ _ _ _ Hdep);
       unfold list_docs_by_role, call, mbind, M_bind, mret, M_ret; simpl;
       destruct (get_documents_by_role (id_role user) w) as [[docs|e] w'];
       simpl; intros Hin; apply list_elem_of_singleton in Hin; exact Hin.
  all: unfold with_user_and_body;
       destruct (payload req) as [|[request|]]; [simpl; set_solver| |];
       rewrite (bind_returns _ _ _ _ _ Hdep); [|simpl; set_solver];
       unfold chat_endpoint, try_except, call, print, mbind, M_bind, mret,
         M_ret, raise; simpl;
       destruct (load_vector_store (id_role user) w) as [[retriever|e1] w1];
       simpl;
       [|destruct (is_Exception e1); simpl; intros Hin;
         apply list_elem_of_singleton in Hin; exact Hin];
       destruct (from_chain_type llm retriever w1) as [[qa|e2] w2]; simpl;
       [|destruct (is_Exception e2); simpl; intros Hin;
         apply list_elem_of_singleton in Hin; exact Hin];
       destruct (run qa (message request) w2) as [[text|e3] w3]; simpl;
       [|destruct (is_Exception e3); simpl];
       intros Hin; apply list_elem_of_singleton in Hin; exact Hin.
Qed.

(** Whatever the request, a role reaches the document loader or the
    retrieval index provider only as the stored role of a user whose
    username and exact password the request carries. *)
Theorem collaborators_see_only_the_callers_role (req : Request) (w : W)
    (r : string) :
  r ∈ scoping_roles (trace (snd (the_app req (mkState w [])))) ->
  exists c rec,
    authorization req = AuthBasic c
    /\ users_db !! cred_username c = Some rec
    /\ password rec = cred_password c
    /\ r = role rec.
Proof.
  intros Hin.
  destruct (reaches_collaborators req) eqn:Hreach.
  - unfold reaches_collaborators in Hreach.
    apply andb_true_iff in Hreach as [Hroute Hacc].
    apply negb_true_iff in Hacc.
    destruct (authorization req) as [| | |c] eqn:Ha; try discriminate Hacc.
    simpl in Hacc.
    destruct (authenticate c) as [user|e] eqn:Hu; [|discriminate Hacc].
    assert (Hr : r = id_role user).
    { apply (scoping_on_route req w c user r); try assumption.
      apply orb_true_iff in Hroute as [H|H];
        apply andb_true_iff in H as [Hm Hp];
        apply bool_decide_eq_true_1 in Hm; auto. }
    destruct (authenticate_returns_inv c user Hu) as (rec & Hl & Hpw & Hid).
    exists c, rec. repeat split; try assumption.
    subst r user. reflexivity.
  - destruct (quiet_request req Hreach) as [resp Hresp].
    rewrite Hresp in Hin. simpl in Hin. set_solver.
Qed.

End Dispatch.

(** ** The further properties at work on the concrete deployment *)

Lemma login_greets_caller_witness :
  authenticate Sample.tony = Returns (mkIdentity "Tony" "engineering")
  /\ Sample.application
       (mkRequest GET "/api/login" (AuthBasic Sample.tony) None) Sample.idle
     = (JSONResponse 200
          (JObj [("message", JStr "Welcome Tony!");
                 ("role", JStr "engineering")]),
        Sample.idle).
Proof.
  split; [reflexivity|].
  exact (login_greets_caller tt Sample.get_documents_by_role
           Sample.load_vector_store Sample.from_chain_type Sample.run
           Sample.here
           (mkRequest GET "/api/login" (AuthBasic Sample.tony) None)
           Sample.idle Sample.tony (mkIdentity "Tony" "engineering")
           eq_refl eq_refl eq_refl eq_refl).
Defined.

Lemma test_greets_caller_witness :
  authenticate Sample.sam = Returns (mkIdentity "Sam" "finance")
  /\ Sample.application
       (mkRequest GET "/api/test" (AuthBasic Sample.sam) None) Sample.idle
     = (JSONResponse 200
          (JObj [("message", JStr "Hello Sam! You can now chat.");
                 ("role", JStr "finance")]),
        Sample.idle).
Proof.
  split; [reflexivity|].
  exact (test_greets_caller tt Sample.get_documents_by_role
           Sample.load_vector_store Sample.from_chain_type Sample.run
           Sample.here
           (mkRequest GET "/api/test" (AuthBasic Sample.sam) None)
           Sample.idle Sample.sam (mkIdentity "Sam" "finance")
           eq_refl eq_refl eq_refl eq_refl).
Defined.

Lemma other_methods_are_refused_witness :
  let req := mkRequest POST "/api/login" (AuthBasic Sample.tony) None in
  method req <> GET /\ method req <> OPTIONS
  /\ one_line (path req) = true
  /\ ~ (method req = POST /\ is_path "/api/chat" (path req) = true)
  /\ ~ (method req = HEAD /\ documentation_path (path req) = true)
  /\ Sample.application req Sample.idle
     = (JSONResponse 405 (JObj [("detail", JStr "Method Not Allowed")]),
        Sample.idle).
Proof.
  intros req.
  assert (H1 : method req <> GET) by discriminate.
  assert (H2 : method req <> OPTIONS) by discriminate.
  assert (H3 : ~ (method req = POST /\ is_path "/api/chat" (path req) = true)).
  { intros [_ Hp]. discriminate Hp. }
  assert (H4 : ~ (method req = HEAD /\ documentation_path (path req) = true)).
  { intros [Hm _]. discriminate Hm. }
  split; [exact H1|]. split; [exact H2|]. split; [reflexivity|].
  split; [exact H3|]. split; [exact H4|].
  exact (other_methods_are_refused tt Sample.get_documents_by_role
           Sample.load_vector_store Sample.from_chain_type Sample.run
           Sample.here req Sample.idle H1 H2 eq_refl eq_refl eq_refl H3 H4).
Defined.

Lemma get_on_chat_path_serves_frontend_witness :
  Sample.application (mkRequest GET "/api/chat" AuthAbsent None) Sample.idle
  = (FileResponse (index_html Sample.here), Sample.idle).
Proof.
  exact (get_on_chat_path_serves_frontend tt Sample.get_documents_by_role
           Sample.load_vector_store Sample.from_chain_type Sample.run
           Sample.here (mkRequest GET "/api/chat" AuthAbsent None)
           Sample.idle eq_refl eq_refl).
Defined.







Lemma other_requests_are_stateless_witness :
  let req := mkRequest GET "/api/role-docs"
               (AuthBasic (mkCredentials "Sam" "guess")) None in
  reaches_collaborators req = false
  /\ snd (Sample.application req (mkState 5%nat [Called_run "earlier"]))
     = mkState 5%nat [Called_run "earlier"]
  /\ fst (Sample.application req (mkState 5%nat [Called_run "earlier"]))
     = fst (Sample.application req Sample.idle).
Proof.
  intros req. split; [reflexivity|].
  exact (other_requests_are_stateless tt Sample.get_documents_by_role
           Sample.load_vector_store Sample.from_chain_type Sample.run
           Sample.here req (mkState 5%nat [Called_run "earlier"]) Sample.idle
           eq_refl).
Defined.

Lemma collaborators_see_only_the_callers_role_witness :
  let req := mkRequest GET "/api/role-docs" (AuthBasic Sample.sam) None in
  "finance" ∈ scoping_roles (trace (snd (Sample.application req Sample.idle)))
  /\ exists c rec,
       authorization req = AuthBasic c
       /\ users_db !! cred_username c = Some rec
       /\ password rec = cred_password c
       /\ "finance" = role rec.
Proof.
  intros req.
  assert (H : "finance" ∈ scoping_roles
                (trace (snd (Sample.application req Sample.idle)))).
  { apply list_elem_of_here. }
  split; [exact H|].
  exact (collaborators_see_only_the_callers_role tt
           Sample.get_documents_by_role Sample.load_vector_store
           Sample.from_chain_type Sample.run Sample.here req 0%nat
           "finance" H).
Defined.
